(** * The shop demo: catalog store, shop and admin handlers, dispatch

    A shallow embedding of the Express application of this repository:
    - [app.js]           the middleware stack, the 404 catch-all, the port;
    - [routes/shop.js]   the shop router with its single [GET /] handler;
    - [routes/admin.js]  is imported by both files but is not part of the
      sources at hand; what is needed of it is either taken as a parameter
      or modelled from the specification (and marked as such).

    The two third-party middlewares of the stack, the URL-encoded body
    parser and the static file server, decide on their own whether they
    end a request: their verdicts are parameters of the application. The
    router follows Express 4.

    Handlers run in a state monad over the catalog store, the one piece of
    process-wide mutable state ([adminData.products]). *)

From Stdlib Require Import ZArith NArith String Ascii List Bool Lia.
From stdpp Require Import base option gmap strings list.

Open Scope string_scope.

(** ** Data *)

(** A value of a submitted form field, or an argument of the add
    operation: text, a number (integer fragment), or [undefined] when the
    property is missing from [req.body]. *)
Inductive field : Type :=
  | FUndefined
  | FNum (n : Z)
  | FStr (s : string).

(** Modelled from the spec: the Product entity of [routes/admin.js]
    (identifier assigned by the store; title, image URL, price and
    description stored as they were given). *)
Record Product : Type := mkProduct {
  id : N;
  title : field;
  imageUrl : field;
  price : field;
  description : field
}.

(** Values that occur in the locals object handed to [res.render]. *)
Inductive value : Type :=
  | VBool (b : bool)
  | VStr (s : string)
  | VProducts (ps : list Product).

(** The catalog store. [products] is the array exported by the admin
    module and read by [routes/shop.js] as [adminData.products].
    [nextId] is modelled from the spec: the counter from which the store
    assigns identifiers. *)
Record Store : Type := mkStore {
  products : list Product;
  nextId : N
}.

(** Modelled from the spec: the store at process start ([routes/admin.js]
    is missing) holds no product. *)
Definition emptyStore : Store := {| products := []; nextId := 0%N |}.

(** ** The state monad of handlers *)

Definition M (A : Type) : Type := Store -> A * Store.

#[global] Instance M_ret : MRet M := fun A (a : A) st => (a, st).

#[global] Instance M_bind : MBind M := fun A B (f : A -> M B) (m : M A) st =>
  let '(a, st1) := m st in f a st1.

Definition gets {A : Type} (f : Store -> A) : M A := fun st => (f st, st).

Definition modify (f : Store -> Store) : M unit := fun st => (tt, f st).

(** ** Requests and responses *)

Inductive Method : Type :=
  | GET | HEAD | POST | PUT | DELETE | PATCH | OPTIONS
  | OTHER (name : string).

#[global] Instance Method_eq_dec : EqDecision Method.
Proof. solve_decision. Defined.

(** A request as the layers see it: [req.method], [req.path], the
    request headers, and [req.body] as [bodyParser.urlencoded] leaves it
    when it accepts the payload. *)
Record Request : Type := mkRequest {
  method : Method;
  path : string;
  headers : gmap string string;
  body : gmap string field
}.

(** What ends a response. *)
Inductive Sent : Type :=
  | Render (view : string) (locals : gmap string value)
  | Redirect (location : string)
  | SendFile (content : string)
  | Allow (methods : list Method)
  | Send (content : string).

Record Response : Type := mkResponse {
  status : Z;
  sent : Sent
}.

(** The [res] object before the response is sent: only its status code
    matters here. Express starts it at 200. *)
Record Res : Type := mkRes { statusCode : Z }.

Definition res0 : Res := {| statusCode := 200 |}.

(** [res.status(code)] *)
Definition res_status (code : Z) (res : Res) : Res := {| statusCode := code |}.

(** [res.render(view, locals)] *)
Definition res_render (view : string) (locals : gmap string value) (res : Res) : Response :=
  {| status := statusCode res; sent := Render view locals |}.

(** [res.redirect(url)]: status 302 and a Location header, no body. *)
Definition res_redirect (url : string) (res : Res) : Response :=
  {| status := 302; sent := Redirect url |}.

(** The router's automatic answer to an OPTIONS request: an Allow
    header listing the methods, sent with [res.send]. *)
Definition res_allow (methods : list Method) (res : Res) : Response :=
  {| status := statusCode res; sent := Allow methods |}.

(** A middleware either ends the response or calls [next()]. *)
Inductive Outcome : Type :=
  | Done (r : Response)
  | Next.

Definition Layer : Type := Request -> Res -> M Outcome.

(** ** routes/shop.js *)

(** The read of [adminData.products] (the spec's [listProducts()]). *)
Definition listProducts : M (list Product) := gets products.

(** [router.get('/', (req, res, next) => { ... })] *)
Definition showShop : Layer := fun req res =>
  prods ← listProducts;
  mret (Done (res_render "shop"
                {[ "prods" := VProducts prods;
                   "pageTitle" := VStr "Shop";
                   "path" := VStr "/";
                   "hasProducts" := VBool (0 <? length prods)%nat ]}
                res)).

(** ** Express routing, as far as the application uses it *)

(** Route paths are literal here. Express 4 matches them without regard
    to case and, routing being non-strict, with an optional trailing
    slash. *)
Definition lower_ascii (c : ascii) : ascii :=
  let n := N_of_ascii c in
  if ((65 <=? n) && (n <=? 90))%N then ascii_of_N (n + 32) else c.

Fixpoint lower (s : string) : string :=
  match s with
  | EmptyString => EmptyString
  | String c s' => String (lower_ascii c) (lower s')
  end.

Definition dropTrailingSlash (s : string) : string :=
  if String.eqb (substring (String.length s - 1) 1 s) "/"
  then substring 0 (String.length s - 1) s
  else s.

Definition matchPath (pattern p : string) : bool :=
  let r := dropTrailingSlash (lower pattern) in
  String.eqb (lower p) r || String.eqb (lower p) (r ++ "/").

(** A route registered with [router.get] also answers HEAD requests. *)
Definition matchMethod (verb m : Method) : bool :=
  match verb, m with
  | GET, (GET | HEAD) => true
  | _, _ => bool_decide (verb = m)
  end.

Definition routeMatches (verb : Method) (pattern : string) (req : Request) : bool :=
  matchMethod verb (method req) && matchPath pattern (path req).

(** [router.METHOD(pattern, handler)]: an entry of a router. *)
Definition Route : Type := Method * string * Layer.

(** The methods a route contributes to the automatic OPTIONS answer. *)
Definition routeOptions (verb : Method) : list Method :=
  match verb with
  | GET => [GET; HEAD]
  | v => [v]
  end.

(** The router appends only the methods it has not listed yet. *)
Definition appendMethods (listed more : list Method) : list Method :=
  fold_left (fun acc m => if bool_decide (m ∈ acc) then acc else acc ++ [m])%list more listed.

(** A router tries its routes in registration order. A route whose path
    matches runs its handler when it has the method; on an OPTIONS
    request it otherwise adds its methods to [options]. When no handler
    ended the response, an OPTIONS request for which methods were
    collected is answered with them, and any other request is passed
    on. *)
Fixpoint runRoutes (routes : list Route) (options : list Method) : Layer :=
  fun req res =>
    match routes with
    | [] =>
        if bool_decide (method req = OPTIONS) then
          match options with
          | [] => mret Next
          | _ :: _ => mret (Done (res_allow options res))
          end
        else mret Next
    | (verb, pattern, handler) :: rest =>
        if matchPath pattern (path req) then
          if matchMethod verb (method req) then
            o ← handler req res;
            match o with
            | Done r => mret (Done r)
            | Next => runRoutes rest options req res
            end
          else
            runRoutes rest
              (if bool_decide (method req = OPTIONS)
               then appendMethods options (routeOptions verb) else options)
              req res
        else runRoutes rest options req res
    end.

(** [express.Router()] with its routes. *)
Definition router (routes : list Route) : Layer := runRoutes routes [].

(** A stack of layers runs them in registration order until one ends the
    response; when all of them called [next()], so does the stack. *)
Fixpoint runStack (stack : list Layer) : Layer :=
  fun req res =>
    match stack with
    | [] => mret Next
    | l :: rest =>
        o ← l req res;
        match o with
        | Done r => mret (Done r)
        | Next => runStack rest req res
        end
    end.

(** [app.use(prefix, layer)]: the layer sees the request when its path
    starts with the prefix at a segment boundary, with the prefix cut
    off; a slash that follows the prefix and is itself followed by a
    slash is cut off with it. *)
Definition stripPrefix (pre p : string) : option string :=
  let n := String.length pre in
  if String.eqb (lower (substring 0 n p)) (lower pre) then
    let rest := substring n (String.length p - n) p in
    if String.eqb rest "" then Some "/"
    else if String.eqb (substring 0 2 rest) "//"
         then Some (substring 1 (String.length rest - 1) rest)
    else if String.eqb (substring 0 1 rest) "/" then Some rest
    else None
  else None.

Definition mount (pre : string) (l : Layer) : Layer :=
  fun req res =>
    match stripPrefix pre (path req) with
    | Some p' =>
        l {| method := method req; path := p';
             headers := headers req; body := body req |} res
    | None => mret Next
    end.

(** [bodyParser.urlencoded({extended: false})]. [parse] is the parser's
    verdict on a request: [Some r] when it rejects the payload
    (unsupported charset, too large, malformed), and the request ends
    with the error response [r] without any later layer being run;
    [None] when it leaves [req.body], which [Request] carries, and calls
    [next()]. *)
Definition urlencoded (parse : Request -> option Response) : Layer :=
  fun req res =>
    match parse req with
    | Some r => mret (Done r)
    | None => mret Next
    end.

(** [express.static(path.join(__dirname, 'public'))] looks only at GET
    and HEAD requests. [send] is what the public directory makes of such
    a request: [Some r] when it is answered from there (a file, in full,
    in part or not modified; a redirect to a directory), [None] when
    nothing is served and [next()] is called. *)
Definition serveStatic (send : Request -> option Response) : Layer :=
  fun req res =>
    match method req with
    | GET | HEAD =>
        match send req with
        | Some r => mret (Done r)
        | None => mret Next
        end
    | _ => mret Next
    end.

(** [routes/shop.js]: [module.exports = router]. *)
Definition shopRoutes : Layer := router [(GET, "/", showShop)].

(** ** app.js *)

(** The 404 catch-all middleware. *)
Definition notFound : Layer := fun req res =>
  mret (Done (res_render "404" {[ "pageTitle" := VStr "Page Not Found" ]}
                (res_status 404 res))).

(** The application: the layers in the order of the [app.use] calls.
    [parse] and [send] are the verdicts of the body parser and of the
    public directory, [adminRoutes] stands for [adminData.routes], the
    router exported by [routes/admin.js]. *)
Definition app (parse send : Request -> option Response) (adminRoutes : Layer) : Layer :=
  runStack [ urlencoded parse;
             serveStatic send;
             mount "/admin" adminRoutes;
             shopRoutes;
             notFound ].

(** What the process is started with. The program never reads
    [process.env]; [startServer] receives the environment to say so. *)
Record Server : Type := mkServer {
  listenPort : Z;
  viewEngine : string;
  viewsDir : string
}.

Definition startServer (env : gmap string string) : Server :=
  {| listenPort := 3000; viewEngine := "hbs"; viewsDir := "views" |}.

(** ** routes/admin.js, modelled from the specification *)

(** Modelled from the spec: the store's add operation of
    [routes/admin.js], which is missing. It constructs a Product with a
    freshly assigned identifier and appends it to the list; no argument
    is validated. *)
Definition addProduct (t i p d : field) : M Product :=
  n ← gets nextId;
  let prod := {| id := n; title := t; imageUrl := i; price := p; description := d |} in
  _ ← modify (fun st => {| products := products st ++ [prod]; nextId := N.succ (nextId st) |});
  mret prod.

(** [req.body.name]: [undefined] when the form has no such field. *)
Definition bodyField (req : Request) (name : string) : field :=
  default FUndefined (body req !! name).

(** Modelled from the spec: the handler of the add-product form of
    [routes/admin.js], which is missing. It extracts title, image URL,
    price and description from the form data as they are, calls the add
    operation and redirects to the shop root path. *)
Definition postAddProduct : Layer := fun req res =>
  _ ← addProduct (bodyField req "title") (bodyField req "imageUrl")
                 (bodyField req "price") (bodyField req "description");
  mret (Done (res_redirect "/" res)).

(** Modelled from the spec: the router of [routes/admin.js], which is
    missing, with the three admin routes of the HTTP surface. The spec
    does not fix what the two GET handlers render: they are
    parameters. *)
Definition adminRouter (showAddProductForm showAdminProducts : Layer) : Layer :=
  router [ (GET, "/add-product", showAddProductForm);
           (POST, "/add-product", postAddProduct);
           (GET, "/products", showAdminProducts) ].

(** A sequence of [addProduct] calls, returning the created products in
    call order. *)
Fixpoint addProducts (calls : list (field * field * field * field)) : M (list Product) :=
  match calls with
  | [] => mret []
  | (t, i, p, d) :: rest =>
      prod ← addProduct t i p d;
      prods ← addProducts rest;
      mret (prod :: prods)
  end.

(** The four fields a product was created with. *)
Definition fieldsOf (p : Product) : field * field * field * field :=
  (title p, imageUrl p, price p, description p).

(** Every identifier in the store lies below the counter. *)
Definition idsBelow (st : Store) : Prop :=
  Forall (fun p => (id p < nextId st)%N) (products st).

(** ** Requests and verdicts used below *)

(** [GET /] *)
Definition getRoot (h : gmap string string) (b : gmap string field) : Request :=
  {| method := GET; path := "/"; headers := h; body := b |}.

(** [POST /admin/add-product] with the submitted form fields. *)
Definition postForm (h : gmap string string) (b : gmap string field) : Request :=
  {| method := POST; path := "/admin/add-product"; headers := h; body := b |}.

(** The verdict of a middleware that ends no request: a parser that
    accepts every payload, a public directory that serves nothing. *)
Definition passes : Request -> option Response := fun _ => None.


(** A public directory that holds an [index.html], served for [/]. *)
Definition indexFile : Request -> option Response := fun req =>
  if String.eqb (path req) "/"
  then Some {| status := 200; sent := SendFile "<html>index</html>" |}
  else None.

(** Headers announcing a URL-encoded payload in a charset the parser
    does not support. *)
Definition latin1Headers : gmap string string :=
  {[ "content-type" := "application/x-www-form-urlencoded; charset=latin1";
     "content-length" := "7" ]}.

(** The parser's verdict on such a payload: 415, unsupported charset;
    every other request is accepted. *)
Definition rejectsLatin1 : Request -> option Response := fun req =>
  if bool_decide (headers req !! "content-type"
                  = Some "application/x-www-form-urlencoded; charset=latin1")
  then Some {| status := 415; sent := Send "unsupported charset" |}
  else None.

(** ** The routing functions on sample paths *)

Example matchPath_root : matchPath "/" "/" = true.
Proof. reflexivity. Qed.
Example matchPath_slash : matchPath "/add-product" "/Add-Product/" = true.
Proof. reflexivity. Qed.
Example matchPath_no : matchPath "/" "/does-not-exist" = false.
Proof. reflexivity. Qed.
Example stripPrefix_admin : stripPrefix "/admin" "/admin/add-product" = Some "/add-product".
Proof. reflexivity. Qed.
Example stripPrefix_adminx : stripPrefix "/admin" "/adminx" = None.
Proof. reflexivity. Qed.
Example stripPrefix_admin_only : stripPrefix "/admin" "/Admin" = Some "/".
Proof. reflexivity. Qed.
Example stripPrefix_admin_slash : stripPrefix "/admin" "/admin/" = Some "/".
Proof. reflexivity. Qed.
Example stripPrefix_double_slash : stripPrefix "/admin" "/admin//add-product" = Some "/add-product".
Proof. reflexivity. Qed.
Example stripPrefix_root : stripPrefix "/admin" "/" = None.
Proof. reflexivity. Qed.
Example shopRoutes_options :
  fst (shopRoutes {| method := OPTIONS; path := "/"; headers := ∅; body := ∅ |} res0 emptyStore)
  = Done {| status := 200; sent := Allow [GET; HEAD] |}.
Proof. reflexivity. Qed.
Example adminRouter_options :
  fst (adminRouter showShop showShop
         {| method := OPTIONS; path := "/add-product"; headers := ∅; body := ∅ |} res0 emptyStore)
  = Done {| status := 200; sent := Allow [GET; HEAD; POST] |}.
Proof. reflexivity. Qed.

(** * Properties *)

Ltac run := unfold mbind, mret, M_bind, M_ret, gets, modify.

(** ** Stacks and routers *)

Lemma runStack_nil req res st : runStack [] req res st = (Next, st).
Proof. reflexivity. Qed.

Lemma runStack_next l rest req res st st1 :
  l req res st = (Next, st1) ->
  runStack (l :: rest) req res st = runStack rest req res st1.
Proof. intros H. cbn [runStack]. run. now rewrite H. Qed.

Lemma runStack_done l rest req res st r st1 :
  l req res st = (Done r, st1) ->
  runStack (l :: rest) req res st = (Done r, st1).
Proof. intros H. cbn [runStack]. run. now rewrite H. Qed.

Lemma urlencoded_accepts parse req res st :
  parse req = None -> urlencoded parse req res st = (Next, st).
Proof. intros H. unfold urlencoded. now rewrite H. Qed.

Lemma urlencoded_rejects parse req res st r :
  parse req = Some r -> urlencoded parse req res st = (Done r, st).
Proof. intros H. unfold urlencoded. now rewrite H. Qed.

Lemma serveStatic_cases send req res st :
  serveStatic send req res st = (Next, st)
  \/ exists r, serveStatic send req res st = (Done r, st).
Proof.
  unfold serveStatic.
  destruct (method req); try (left; reflexivity);
    (destruct (send req) as [r |]; [right; exists r | left]; reflexivity).
Qed.

Lemma serveStatic_nothing send req res st :
  send req = None -> serveStatic send req res st = (Next, st).
Proof. intros H. unfold serveStatic. rewrite H. now destruct (method req). Qed.

Lemma serveStatic_other_method send req res st :
  method req <> GET -> method req <> HEAD ->
  serveStatic send req res st = (Next, st).
Proof.
  intros Hg Hh. unfold serveStatic.
  destruct (method req); try reflexivity; congruence.
Qed.

Lemma mount_miss pre l req res st :
  stripPrefix pre (path req) = None ->
  mount pre l req res st = (Next, st).
Proof. intros H. unfold mount. now rewrite H. Qed.

Lemma showShop_eq req res st :
  showShop req res st =
  (Done (res_render "shop"
           {[ "prods" := VProducts (products st);
              "pageTitle" := VStr "Shop";
              "path" := VStr "/";
              "hasProducts" := VBool (0 <? length (products st))%nat ]}
           res), st).
Proof. reflexivity. Qed.

Lemma notFound_eq req res st :
  notFound req res st =
  (Done {| status := 404;
           sent := Render "404" {[ "pageTitle" := VStr "Page Not Found" ]} |}, st).
Proof. reflexivity. Qed.

(** The shop router: its handler on a GET or HEAD for its path, the
    Allow answer on an OPTIONS for its path, [next()] otherwise. *)
Lemma shopRoutes_eq req res st :
  shopRoutes req res st =
  if matchPath "/" (path req) then
    if matchMethod GET (method req) then showShop req res st
    else if bool_decide (method req = OPTIONS)
         then (Done (res_allow [GET; HEAD] res), st)
         else (Next, st)
  else (Next, st).
Proof.
  unfold shopRoutes, router. cbn [runRoutes].
  destruct (matchPath "/" (path req)).
  - destruct (method req); reflexivity.
  - destruct (method req); reflexivity.
Qed.

Lemma shopRoutes_frame req res st : snd (shopRoutes req res st) = st.
Proof.
  rewrite shopRoutes_eq.
  destruct (matchPath "/" (path req)); [| reflexivity].
  destruct (matchMethod GET (method req)); [reflexivity |].
  now destruct (bool_decide (method req = OPTIONS)).
Qed.

(** What the shop router and the catch-all make of a request that
    reached them. *)
Lemma shop_or_notFound req res st :
  runStack [shopRoutes; notFound] req res st =
  if matchPath "/" (path req) then
    if matchMethod GET (method req) then showShop req res st
    else if bool_decide (method req = OPTIONS)
         then (Done (res_allow [GET; HEAD] res), st)
         else notFound req res st
  else notFound req res st.
Proof.
  cbn [runStack]. run. rewrite shopRoutes_eq.
  destruct (matchPath "/" (path req)); [| reflexivity].
  destruct (matchMethod GET (method req)); [reflexivity |].
  now destruct (bool_decide (method req = OPTIONS)).
Qed.

Lemma app_rejected parse send admin req res st r :
  parse req = Some r ->
  app parse send admin req res st = (Done r, st).
Proof.
  intros Hp. unfold app.
  erewrite runStack_done; [reflexivity | now apply urlencoded_rejects].
Qed.

Lemma app_static_done parse send admin req res st r :
  parse req = None ->
  serveStatic send req res st = (Done r, st) ->
  app parse send admin req res st = (Done r, st).
Proof.
  intros Hp Hs. unfold app.
  erewrite runStack_next by (now apply urlencoded_accepts).
  erewrite runStack_done; [reflexivity | exact Hs].
Qed.

(** When the parser, the static middleware and the admin router pass a
    request on, the shop router and then the catch-all decide. *)
Lemma app_passed_on parse send admin req res st st1 :
  parse req = None ->
  serveStatic send req res st = (Next, st) ->
  mount "/admin" admin req res st = (Next, st1) ->
  app parse send admin req res st = runStack [shopRoutes; notFound] req res st1.
Proof.
  intros Hp Hs Ha. unfold app.
  erewrite runStack_next by (now apply urlencoded_accepts).
  erewrite runStack_next by exact Hs.
  erewrite runStack_next by exact Ha.
  reflexivity.
Qed.

Lemma app_get_root parse send admin h b res st :
  parse (getRoot h b) = None ->
  send (getRoot h b) = None ->
  app parse send admin (getRoot h b) res st = showShop (getRoot h b) res st.
Proof.
  intros Hp Hs.
  rewrite (app_passed_on _ _ _ _ _ st st Hp);
    [| now apply serveStatic_nothing | reflexivity].
  rewrite shop_or_notFound. reflexivity.
Qed.

(** ** The shop handler *)

(** C2: for every state of the catalog store, the shop handler renders
    the view "shop" with a locals object that has exactly four
    properties: prods, the store's product sequence; pageTitle "Shop";
    path "/"; and hasProducts, true exactly when the number of products
    is greater than zero. The store is left as it was. *)
Theorem showShop_renders_shop (req : Request) (res : Res) (st : Store) :
  exists locals : gmap string value,
    showShop req res st =
      (Done {| status := statusCode res; sent := Render "shop" locals |}, st)
    /\ locals !! "prods" = Some (VProducts (products st))
    /\ locals !! "pageTitle" = Some (VStr "Shop")
    /\ locals !! "path" = Some (VStr "/")
    /\ locals !! "hasProducts" =
         Some (VBool (bool_decide (0 < length (products st))%nat))
    /\ forall k : string,
         k <> "prods" -> k <> "pageTitle" -> k <> "path" -> k <> "hasProducts" ->
         locals !! k = None.
Proof.
  eexists. split; [apply showShop_eq |].
  repeat split.
  - rewrite lookup_insert_ne by discriminate.
    rewrite lookup_insert_ne by discriminate.
    rewrite lookup_insert_ne by discriminate.
    rewrite lookup_singleton_eq.
    do 2 f_equal. destruct (products st) as [| p ps]; [reflexivity |].
    cbn. symmetry. apply bool_decide_eq_true. lia.
  - intros k H1 H2 H3 H4.
    repeat (rewrite lookup_insert_ne by congruence).
    apply lookup_singleton_ne. congruence.
Qed.

(** C3: when the catalog store holds no products, reading the product
    list yields the empty sequence, and the shop handler passes
    hasProducts = false to the renderer. *)
Theorem empty_store_lists_nothing (st : Store) (req : Request) (res : Res) :
  products st = [] ->
  fst (listProducts st) = []
  /\ exists (r : Response) (view : string) (locals : gmap string value),
       fst (showShop req res st) = Done r
       /\ sent r = Render view locals
       /\ locals !! "prods" = Some (VProducts [])
       /\ locals !! "hasProducts" = Some (VBool false).
Proof.
  intros Hempty. split; [exact Hempty |].
  rewrite showShop_eq, Hempty. cbn [fst length Nat.ltb Nat.leb res_render sent].
  do 3 eexists. repeat split.
Qed.

Lemma empty_store_lists_nothing_witness :
  products emptyStore = []
  /\ fst (listProducts emptyStore) = []
  /\ exists (r : Response) (view : string) (locals : gmap string value),
       fst (showShop (getRoot ∅ ∅) res0 emptyStore) = Done r
       /\ sent r = Render view locals
       /\ locals !! "prods" = Some (VProducts [])
       /\ locals !! "hasProducts" = Some (VBool false).
Proof.
  split; [reflexivity |].
  apply (empty_store_lists_nothing emptyStore (getRoot ∅ ∅) res0). reflexivity.
Defined.

(** C6: reading the product list has no effect on the store, the shop
    handler leaves the store as it found it, and so does the application
    when it handles a GET / request, whatever its headers and body,
    whatever the body parser and the public directory make of it, and
    whatever the admin router is. *)
Theorem showShop_preserves_store (st : Store) :
  snd (listProducts st) = st
  /\ (forall (req : Request) (res : Res), snd (showShop req res st) = st)
  /\ (forall (parse send : Request -> option Response) (admin : Layer)
             (h : gmap string string) (b : gmap string field) (res : Res),
        snd (app parse send admin (getRoot h b) res st) = st).
Proof.
  split; [reflexivity |]. split; [reflexivity |].
  intros parse send admin h b res.
  destruct (parse (getRoot h b)) as [r |] eqn:Hp.
  - rewrite (app_rejected _ _ _ _ _ _ _ Hp). reflexivity.
  - destruct (send (getRoot h b)) as [r |] eqn:Hs.
    + erewrite app_static_done; [reflexivity | exact Hp |].
      unfold serveStatic. cbn [method getRoot]. rewrite Hs. reflexivity.
    + rewrite app_get_root by assumption. reflexivity.
Qed.

(** ** The process *)

(** C9: whatever the environment variables are, the server listens on
    port 3000, and its configuration is the same for every
    environment. *)
Theorem listens_on_3000 (env : gmap string string) :
  listenPort (startServer env) = 3000%Z
  /\ forall env' : gmap string string, startServer env' = startServer env.
Proof. split; reflexivity. Qed.

(** ** Dispatch *)




(** Every page that the shop router or the catch-all renders comes with
    a pageTitle string: "Shop" with the view "shop", "Page Not Found"
    with the view "404". *)
Theorem shop_and_404_pages_have_title
    (req : Request) (res : Res) (st st' : Store) (r : Response)
    (view : string) (locals : gmap string value) :
  runStack [shopRoutes; notFound] req res st = (Done r, st') ->
  sent r = Render view locals ->
  (view = "shop"%string /\ locals !! "pageTitle" = Some (VStr "Shop"))
  \/ (view = "404"%string /\ locals !! "pageTitle" = Some (VStr "Page Not Found")).
Proof.
  rewrite shop_or_notFound.
  destruct (matchPath "/" (path req)).
  - destruct (matchMethod GET (method req)).
    + rewrite showShop_eq. intros [= <- <-] [= <- <-]. left. split; reflexivity.
    + destruct (bool_decide (method req = OPTIONS)).
      * intros [= <- <-] Hsent. discriminate Hsent.
      * rewrite notFound_eq. intros [= <- <-] [= <- <-]. right. split; reflexivity.
  - rewrite notFound_eq. intros [= <- <-] [= <- <-]. right. split; reflexivity.
Qed.

Lemma shop_and_404_pages_have_title_witness :
  ("shop"%string = "shop"%string
   /\ ({[ "prods" := VProducts [];
          "pageTitle" := VStr "Shop";
          "path" := VStr "/";
          "hasProducts" := VBool false ]} : gmap string value) !! "pageTitle"
      = Some (VStr "Shop"))
  \/ ("shop"%string = "404"%string
      /\ ({[ "prods" := VProducts [];
             "pageTitle" := VStr "Shop";
             "path" := VStr "/";
             "hasProducts" := VBool false ]} : gmap string value) !! "pageTitle"
         = Some (VStr "Page Not Found")).
Proof.
  apply (shop_and_404_pages_have_title (getRoot ∅ ∅) res0 emptyStore emptyStore
           {| status := 200;
              sent := Render "shop"
                        {[ "prods" := VProducts [];
                           "pageTitle" := VStr "Shop";
                           "path" := VStr "/";
                           "hasProducts" := VBool false ]} |});
    reflexivity.
Defined.

(** ** The catalog store *)

Open Scope list_scope.

Lemma addProduct_eq t i p d st :
  addProduct t i p d st =
  ({| id := nextId st; title := t; imageUrl := i; price := p; description := d |},
   {| products := products st ++
        [{| id := nextId st; title := t; imageUrl := i; price := p; description := d |}];
      nextId := N.succ (nextId st) |}).
Proof. reflexivity. Qed.

Lemma addProducts_cons t i p d rest st :
  addProducts ((t, i, p, d) :: rest) st =
  let '(prod, st1) := addProduct t i p d st in
  let '(prods, st2) := addProducts rest st1 in
  (prod :: prods, st2).
Proof. reflexivity. Qed.

(** What a run of calls does to an arbitrary store: the created
    products are appended in call order, carry the fields of their
    calls, and take the identifiers from the counter onwards. *)
Lemma addProducts_spec calls : forall st created st',
  addProducts calls st = (created, st') ->
  products st' = products st ++ created
  /\ fieldsOf <$> created = calls
  /\ nextId st' = (nextId st + N.of_nat (length calls))%N
  /\ Forall (fun p => (nextId st <= id p)%N) created
  /\ NoDup (id <$> created).
Proof.
  induction calls as [| [[[t i] p] d] rest IH]; intros st created st' Hrun.
  - injection Hrun as <- <-. rewrite app_nil_r, N.add_0_r.
    repeat split; constructor.
  - rewrite addProducts_cons, addProduct_eq in Hrun.
    destruct (addProducts rest _) as [prods st2] eqn:Hrest.
    injection Hrun as <- <-.
    destruct (IH _ _ _ Hrest) as (Hps & Hfs & Hn & Hlow & Hnd).
    cbn [products nextId] in Hps, Hn, Hlow.
    repeat split.
    + rewrite Hps, <- app_assoc. reflexivity.
    + cbn. rewrite Hfs. reflexivity.
    + rewrite Hn. cbn [length]. lia.
    + constructor; [cbn; lia |].
      eapply Forall_impl; [exact Hlow |]. cbn. intros; lia.
    + cbn. constructor; [| exact Hnd].
      intros Hin. apply list_elem_of_fmap in Hin as (q & Hq & Hqin).
      rewrite Forall_forall in Hlow. specialize (Hlow q Hqin). lia.
Qed.

(** C1: after any sequence of addProduct calls on the empty store, the
    product list holds exactly the products those calls created, in call
    order and with the fields of the calls, and no two entries of the
    list share an identifier, whether or not their fields are equal. *)
Theorem listing_after_adds (calls : list (field * field * field * field)) :
  exists (created : list Product) (st : Store),
    addProducts calls emptyStore = (created, st)
    /\ fst (listProducts st) = created
    /\ fieldsOf <$> created = calls
    /\ NoDup (id <$> fst (listProducts st))
    /\ forall (m n : nat) (p q : Product),
         fst (listProducts st) !! m = Some p ->
         fst (listProducts st) !! n = Some q ->
         m <> n -> id p <> id q.
Proof.
  destruct (addProducts calls emptyStore) as [created st] eqn:Hrun.
  exists created, st.
  destruct (addProducts_spec _ _ _ _ Hrun) as (Hps & Hfs & _ & _ & Hnd).
  cbn in Hps. unfold listProducts, gets. cbn [fst]. rewrite Hps.
  repeat split; try assumption.
  intros m n p q Hm Hn Hmn Heq. apply Hmn.
  eapply NoDup_lookup; [exact Hnd | |].
  - rewrite list_lookup_fmap, Hm. reflexivity.
  - rewrite list_lookup_fmap, Hn, Heq. reflexivity.
Qed.

Example two_equal_calls :
  id <$> fst (addProducts [(FStr "Shirt", FStr "/img.png", FNum 20, FStr "cotton");
                           (FStr "Shirt", FStr "/img.png", FNum 20, FStr "cotton")]
                emptyStore) = [0%N; 1%N].
Proof. reflexivity. Qed.

(** C5: addProduct returns for every store and for all field values,
    malformed ones included: the product it returns carries the four
    values as given, it is appended to the list, and the list is one
    longer. In a store whose identifiers lie below the counter (as in
    the empty store, and again after the call) the identifier is fresh:
    no product of the list has it, so distinct identifiers stay
    distinct. *)
Theorem addProduct_appends (t i p d : field) (st : Store) :
  exists (prod : Product) (st' : Store),
    addProduct t i p d st = (prod, st')
    /\ fieldsOf prod = (t, i, p, d)
    /\ products st' = products st ++ [prod]
    /\ length (products st') = S (length (products st))
    /\ (idsBelow st ->
        (id prod ∉ (id <$> products st))
        /\ idsBelow st'
        /\ (NoDup (id <$> products st) -> NoDup (id <$> products st'))).
Proof.
  do 2 eexists. split; [apply addProduct_eq |].
  cbn [products nextId id fieldsOf title imageUrl price description].
  split; [reflexivity |]. split; [reflexivity |].
  split; [rewrite length_app; cbn; lia |].
  intros Hbelow.
  assert (Hfresh : nextId st ∉ (id <$> products st)).
  { intros Hin. apply list_elem_of_fmap in Hin as (q & Hq & Hqin).
    unfold idsBelow in Hbelow. rewrite Forall_forall in Hbelow.
    specialize (Hbelow q Hqin). lia. }
  split; [exact Hfresh |]. split.
  - unfold idsBelow in *. cbn [products nextId].
    apply Forall_app. split.
    + eapply Forall_impl; [exact Hbelow |]. cbn. intros; lia.
    + constructor; [cbn; lia | constructor].
  - intros Hnd. rewrite fmap_app. apply NoDup_app. repeat split.
    + exact Hnd.
    + intros x Hx Hx'. cbn in Hx'. apply list_elem_of_singleton in Hx'. subst x.
      exact (Hfresh Hx).
    + cbn. apply NoDup_singleton.
Qed.

Lemma addProduct_appends_witness :
  idsBelow emptyStore
  /\ exists (prod : Product) (st' : Store),
       addProduct (FStr "") (FStr "/img.png") (FNum (-1)) FUndefined emptyStore = (prod, st')
       /\ fieldsOf prod = (FStr "", FStr "/img.png", FNum (-1), FUndefined)
       /\ products st' = [prod]
       /\ (id prod ∉ (id <$> products emptyStore))
       /\ idsBelow st'.
Proof.
  assert (H0 : idsBelow emptyStore) by constructor.
  split; [exact H0 |].
  destruct (addProduct_appends (FStr "") (FStr "/img.png") (FNum (-1)) FUndefined emptyStore)
    as (prod & st' & Hrun & Hf & Hps & _ & Hfresh).
  destruct (Hfresh H0) as (Hnew & Hbelow & _).
  exists prod, st'. repeat split; assumption.
Defined.

(** ** The add-product form *)

Lemma postAddProduct_eq req res st :
  postAddProduct req res st =
  (Done (res_redirect "/" res),
   snd (addProduct (bodyField req "title") (bodyField req "imageUrl")
                   (bodyField req "price") (bodyField req "description") st)).
Proof. reflexivity. Qed.


(** C7: the add-product handler reads title, imageUrl, price and
    description from the submitted form as they are (undefined for a
    missing field), hands them to the store's add operation, whose new
    store it leaves behind, and answers with a redirect (302) to "/":
    the response renders no view. *)
Theorem postAddProduct_redirects (req : Request) (res : Res) (st : Store) :
  exists (prod : Product) (st' : Store) (r : Response),
    addProduct (default FUndefined (body req !! "title"))
               (default FUndefined (body req !! "imageUrl"))
               (default FUndefined (body req !! "price"))
               (default FUndefined (body req !! "description")) st = (prod, st')
    /\ postAddProduct req res st = (Done r, st')
    /\ products st' = products st ++ [prod]
    /\ status r = 302%Z
    /\ sent r = Redirect "/"
    /\ forall (view : string) (locals : gmap string value), sent r <> Render view locals.
Proof.
  do 3 eexists. split; [apply addProduct_eq |].
  split; [apply postAddProduct_eq |].
  repeat split. intros view locals Hr. discriminate Hr.
Qed.

Example postAddProduct_shirt :
  let b : gmap string field :=
    {[ "title" := FStr "Shirt"; "imageUrl" := FStr "/img.png";
       "price" := FStr "19.99"; "description" := FStr "cotton" ]} in
  products (snd (postAddProduct (postForm ∅ b) res0 emptyStore)) =
  [ {| id := 0; title := FStr "Shirt"; imageUrl := FStr "/img.png";
       price := FStr "19.99"; description := FStr "cotton" |} ].
Proof. vm_compute. reflexivity. Qed.




(** ** More on the middleware stack of app.js *)

Lemma matchMethod_GET_iff m :
  matchMethod GET m = true <-> m = GET \/ m = HEAD.
Proof.
  destruct m; cbn; split; intros H; try reflexivity; auto;
    try discriminate; destruct H; discriminate.
Qed.

(** X1: the application answers every request, whatever the body parser
    and the public directory make of it and whatever router is mounted
    under /admin: the stack never runs out of layers, because the
    catch-all comes last. *)
Theorem app_always_answers
    (parse send : Request -> option Response) (admin : Layer)
    (req : Request) (res : Res) (st : Store) :
  exists (r : Response) (st' : Store), app parse send admin req res st = (Done r, st').
Proof.
  destruct (parse req) as [r |] eqn:Hp.
  { rewrite (app_rejected _ _ _ _ _ _ _ Hp). eauto. }
  destruct (serveStatic_cases send req res st) as [Hs | [r Hs]].
  - destruct (mount "/admin" admin req res st) as [[r |] st1] eqn:Ha.
    + exists r, st1. unfold app.
      erewrite runStack_next by (now apply urlencoded_accepts).
      erewrite runStack_next by exact Hs.
      erewrite runStack_done; [reflexivity | exact Ha].
    + rewrite (app_passed_on _ _ _ _ _ _ _ Hp Hs Ha), shop_or_notFound.
      destruct (matchPath "/" (path req)); [| rewrite notFound_eq; eauto].
      destruct (matchMethod GET (method req)); [rewrite showShop_eq; eauto |].
      destruct (bool_decide (method req = OPTIONS)); [eauto |].
      rewrite notFound_eq. eauto.
  - rewrite (app_static_done _ _ _ _ _ _ _ Hp Hs). eauto.
Qed.

(** X2: the static middleware comes before every route: when the body
    parser accepts a GET or HEAD request and the public directory
    answers it, that answer is the application's, neither the admin
    router nor the shop handler runs, and the store is unchanged, also
    when the path is one a route would match. *)
Theorem static_answer_shadows_routes
    (parse send : Request -> option Response) (admin : Layer)
    (req : Request) (res : Res) (st : Store) (r : Response) :
  parse req = None ->
  method req = GET \/ method req = HEAD ->
  send req = Some r ->
  app parse send admin req res st = (Done r, st).
Proof.
  intros Hp Hm Hs. apply app_static_done; [exact Hp |].
  unfold serveStatic. destruct Hm as [-> | ->]; rewrite Hs; reflexivity.
Qed.

Lemma static_answer_shadows_routes_witness :
  app passes indexFile postAddProduct (getRoot ∅ ∅) res0 emptyStore =
    (Done {| status := 200; sent := SendFile "<html>index</html>" |}, emptyStore).
Proof.
  apply (static_answer_shadows_routes passes indexFile postAddProduct
           (getRoot ∅ ∅) res0 emptyStore).
  - reflexivity.
  - left. reflexivity.
  - reflexivity.
Defined.

(** X3: a request whose path is not under /admin never changes the
    catalog store, whatever its method, headers and body, whatever the
    body parser and the public directory make of it and whatever the
    admin router would do: the shop handler and the catch-all only
    read. *)
Theorem outside_admin_store_unchanged
    (parse send : Request -> option Response) (admin : Layer)
    (req : Request) (res : Res) (st : Store) :
  stripPrefix "/admin" (path req) = None ->
  snd (app parse send admin req res st) = st.
Proof.
  intros Hpath.
  destruct (parse req) as [r |] eqn:Hp.
  { rewrite (app_rejected _ _ _ _ _ _ _ Hp). reflexivity. }
  destruct (serveStatic_cases send req res st) as [Hs | [r Hs]].
  - rewrite (app_passed_on _ _ _ _ _ _ _ Hp Hs (mount_miss _ _ _ _ _ Hpath)).
    cbn [runStack]. run.
    pose proof (shopRoutes_frame req res st) as Hf.
    destruct (shopRoutes req res st) as [[r |] st1]; cbn [snd] in Hf; subst st1; reflexivity.
  - rewrite (app_static_done _ _ _ _ _ _ _ Hp Hs). reflexivity.
Qed.

Lemma outside_admin_store_unchanged_witness :
  snd (app passes passes postAddProduct
         {| method := POST; path := "/administrator"; headers := ∅; body := ∅ |}
         res0 emptyStore)
  = emptyStore.
Proof.
  apply (outside_admin_store_unchanged passes passes postAddProduct
           {| method := POST; path := "/administrator"; headers := ∅; body := ∅ |}
           res0 emptyStore).
  reflexivity.
Defined.

(** X4: the router mounted under /admin is consulted only for paths
    under /admin: for any other request the answer and the store are the
    same whichever router is mounted there. *)
Theorem admin_router_only_under_admin
    (parse send : Request -> option Response) (admin admin' : Layer)
    (req : Request) (res : Res) (st : Store) :
  stripPrefix "/admin" (path req) = None ->
  app parse send admin req res st = app parse send admin' req res st.
Proof.
  intros Hpath.
  destruct (parse req) as [r |] eqn:Hp.
  { now rewrite !(app_rejected _ _ _ _ _ _ _ Hp). }
  destruct (serveStatic_cases send req res st) as [Hs | [r Hs]].
  - rewrite (app_passed_on _ _ admin _ _ _ _ Hp Hs (mount_miss _ _ _ _ _ Hpath)).
    rewrite (app_passed_on _ _ admin' _ _ _ _ Hp Hs (mount_miss _ _ _ _ _ Hpath)).
    reflexivity.
  - rewrite (app_static_done _ _ admin _ _ _ _ Hp Hs).
    rewrite (app_static_done _ _ admin' _ _ _ _ Hp Hs). reflexivity.
Qed.

Lemma admin_router_only_under_admin_witness :
  app passes passes postAddProduct (getRoot ∅ ∅) res0 emptyStore =
  app passes passes notFound (getRoot ∅ ∅) res0 emptyStore.
Proof.
  apply (admin_router_only_under_admin passes passes postAddProduct notFound
           (getRoot ∅ ∅) res0 emptyStore).
  reflexivity.
Defined.



(** X6: a request that the body parser accepts, that is not a GET, HEAD
    or OPTIONS request and whose path is not under /admin is answered
    404 with the not-found page, whatever the public directory holds,
    and the store is unchanged: the static middleware looks only at GET
    and HEAD, and the shop router registers only a GET route. In
    particular an accepted POST to the shop root is not found. *)
Theorem other_methods_outside_admin_404
    (parse send : Request -> option Response) (admin : Layer)
    (req : Request) (st : Store) :
  parse req = None ->
  method req <> GET -> method req <> HEAD -> method req <> OPTIONS ->
  stripPrefix "/admin" (path req) = None ->
  app parse send admin req res0 st =
    (Done {| status := 404;
             sent := Render "404" {[ "pageTitle" := VStr "Page Not Found" ]} |}, st).
Proof.
  intros Hp Hg Hh Ho Hpath.
  rewrite (app_passed_on _ _ _ _ _ _ _ Hp
             (serveStatic_other_method _ _ _ _ Hg Hh) (mount_miss _ _ _ _ _ Hpath)).
  rewrite shop_or_notFound.
  destruct (matchPath "/" (path req)); [| apply notFound_eq].
  destruct (matchMethod GET (method req)) eqn:Hm.
  - apply matchMethod_GET_iff in Hm as [Hm | Hm]; congruence.
  - rewrite bool_decide_eq_false_2 by exact Ho. apply notFound_eq.
Qed.

Lemma other_methods_outside_admin_404_witness :
  app passes indexFile postAddProduct
      {| method := POST; path := "/"; headers := ∅; body := ∅ |} res0 emptyStore =
    (Done {| status := 404;
             sent := Render "404" {[ "pageTitle" := VStr "Page Not Found" ]} |},
     emptyStore).
Proof.
  apply (other_methods_outside_admin_404 passes indexFile postAddProduct
           {| method := POST; path := "/"; headers := ∅; body := ∅ |} emptyStore);
    [reflexivity | discriminate | discriminate | discriminate | reflexivity].
Defined.

(** X8: the body parser comes before everything else: a request whose
    payload it rejects ends with the parser's error response; no file is
    served, no handler runs, and the store is unchanged, so a rejected
    submission of the add-product form adds no product. *)
Theorem rejected_payload_reaches_no_handler
    (parse send : Request -> option Response) (admin : Layer)
    (req : Request) (res : Res) (st : Store) (r : Response) :
  parse req = Some r ->
  app parse send admin req res st = (Done r, st).
Proof. apply app_rejected. Qed.

Lemma rejected_payload_reaches_no_handler_witness :
  app rejectsLatin1 passes (adminRouter notFound notFound)
      (postForm latin1Headers ∅) res0 emptyStore =
    (Done {| status := 415; sent := Send "unsupported charset" |}, emptyStore).
Proof.
  apply (rejected_payload_reaches_no_handler rejectsLatin1 passes
           (adminRouter notFound notFound) (postForm latin1Headers ∅) res0 emptyStore).
  vm_compute. reflexivity.
Defined.
